(** * SysTimer, AVR back end: register driver, interval arithmetic and
      interrupt dispatch ([src/SysTimer_AVR.cpp]).

    The development is a shallow embedding of the translation unit:

    - the timer registers the file touches ([TCCRnA], [TCCRnB], [TIMSKn],
      [OCRnA] for n = 1, 3, 4, 5) and the global interrupt flag of [SREG]
      form the record [mcu]; [cli()] and [sei()] clear and set the flag;
    - [double] arithmetic is IEEE 754 round-to-nearest-even arithmetic of
      the Standard Library's [SpecFloat], parametric in the format, so the
      same definitions are read at binary64 and at the 32-bit format that
      avr-gcc uses for [double];
    - undefined behaviour (a null dereference, a call through a null
      function pointer, a floating-to-integer conversion out of range) is an
      explicit [Fault] outcome;
    - timer objects live in a store indexed by address, [_AVRTimerTable]
      holds addresses, and the address 0 is [nullptr]. *)

From Stdlib Require Import ZArith QArith.QArith_base QArith.Qround QArith.Qfield.
From Stdlib Require Import Floats.SpecFloat.
From stdpp Require Import base option list gmap.

Open Scope Z_scope.

(** ** Outcomes *)

Inductive fault : Set :=
| NullDeref      (* read or write through a null object pointer *)
| WildDeref      (* object pointer that addresses no timer object *)
| NullCall       (* call through a null function pointer *)
| CastRange      (* floating value not representable in the integer type *)
| TableBounds    (* [_AVRTimerTable] indexed past its end *)
| NoVector.      (* interrupt vector not compiled in *)

Inductive outcome (X : Type) : Type :=
| Ok (x : X)
| Fault (f : fault).
Arguments Ok {X} x.
Arguments Fault {X} f.

Definition obind {X Y} (c : outcome X) (k : X -> outcome Y) : outcome Y :=
  match c with
  | Ok x => k x
  | Fault f => Fault f
  end.

Notation "'let*' x ':=' c 'in' k" := (obind c (fun x => k))
  (at level 10, x name, c at level 100, k at level 200).

(** ** Hardware registers *)

(** The four 16-bit timer units the macros can name: [TCCR1A], [TCCR3A],
    [TCCR4A], [TCCR5A] and so on. *)
Inductive hwtimer : Set := Timer1 | Timer3 | Timer4 | Timer5.

#[global] Instance hwtimer_eq_dec : EqDecision hwtimer.
Proof. solve_decision. Defined.

Inductive segment : Set := A | B.

(** Register names, as the token-pasting macros of the source build them:
    [TIMER_CONTROL(T, S)] is [TCCR ## T ## S], [TIMER_MASK(T)] is
    [TIMSK ## T] and [TIMER_CMR(T)] is [OCR ## T ## A]. *)
Inductive register : Set :=
| TIMER_CONTROL (T : hwtimer) (S : segment)
| TIMER_MASK (T : hwtimer)
| TIMER_CMR (T : hwtimer).

Record timer_regs : Set := mkRegs {
  TCCRA : Z;   (* 8 bits *)
  TCCRB : Z;   (* 8 bits *)
  TIMSK : Z;   (* 8 bits *)
  OCRA  : Z    (* 16 bits *)
}.

Record mcu : Set := mkMcu {
  SREG_I : bool;          (* global interrupt enable *)
  regs1 : timer_regs;
  regs3 : timer_regs;
  regs4 : timer_regs;
  regs5 : timer_regs
}.

Definition regs (T : hwtimer) (m : mcu) : timer_regs :=
  match T with
  | Timer1 => regs1 m
  | Timer3 => regs3 m
  | Timer4 => regs4 m
  | Timer5 => regs5 m
  end.

Definition set_regs (T : hwtimer) (r : timer_regs) (m : mcu) : mcu :=
  match T with
  | Timer1 => mkMcu (SREG_I m) r (regs3 m) (regs4 m) (regs5 m)
  | Timer3 => mkMcu (SREG_I m) (regs1 m) r (regs4 m) (regs5 m)
  | Timer4 => mkMcu (SREG_I m) (regs1 m) (regs3 m) r (regs5 m)
  | Timer5 => mkMcu (SREG_I m) (regs1 m) (regs3 m) (regs4 m) r
  end.

Definition register_timer (r : register) : hwtimer :=
  match r with
  | TIMER_CONTROL T _ | TIMER_MASK T | TIMER_CMR T => T
  end.

Definition read (r : register) (m : mcu) : Z :=
  match r with
  | TIMER_CONTROL T A => TCCRA (regs T m)
  | TIMER_CONTROL T B => TCCRB (regs T m)
  | TIMER_MASK T => TIMSK (regs T m)
  | TIMER_CMR T => OCRA (regs T m)
  end.

(** A store keeps the low 8 bits (16 for the compare register). *)
Definition write (r : register) (v : Z) (m : mcu) : mcu :=
  let old := regs (register_timer r) m in
  match r with
  | TIMER_CONTROL T A =>
      set_regs T (mkRegs (v mod 2 ^ 8) (TCCRB old) (TIMSK old) (OCRA old)) m
  | TIMER_CONTROL T B =>
      set_regs T (mkRegs (TCCRA old) (v mod 2 ^ 8) (TIMSK old) (OCRA old)) m
  | TIMER_MASK T =>
      set_regs T (mkRegs (TCCRA old) (TCCRB old) (v mod 2 ^ 8) (OCRA old)) m
  | TIMER_CMR T =>
      set_regs T (mkRegs (TCCRA old) (TCCRB old) (TIMSK old) (v mod 2 ^ 16)) m
  end.

(** [r |= v] *)
Definition or_assign (r : register) (v : Z) (m : mcu) : mcu :=
  write r (Z.lor (read r m) v) m.

Definition cli (m : mcu) : mcu :=
  mkMcu false (regs1 m) (regs3 m) (regs4 m) (regs5 m).

Definition sei (m : mcu) : mcu :=
  mkMcu true (regs1 m) (regs3 m) (regs4 m) (regs5 m).

(** Bit numbers of avr-libc's device headers: [OCIEnA] is bit 1 of
    [TIMSKn]; [CS10], [CS12] and [WGM12] are bits 0, 2 and 3 of [TCCRnB]. *)
Definition _BV (bit : Z) : Z := Z.shiftl 1 bit.
Definition TIMER_CTC (T : hwtimer) : Z := 1.
Definition CS10 : Z := 0.
Definition CS12 : Z := 2.
Definition WGM12 : Z := 3.

(** Arduino's macro
    [constrain(amt,low,high) ((amt)<(low)?(low):((amt)>(high)?(high):(amt)))]. *)
Definition constrain (amt low high : Z) : Z :=
  if amt <? low then low else if amt >? high then high else amt.

(** ** IEEE 754 arithmetic for [double] *)

Section Double.
(** Precision and exponent bound of the format: 53 and 1024 for binary64,
    24 and 128 for binary32. *)
Variables prec emax : Z.

Definition double_of_Z (n : Z) : spec_float :=
  binary_normalize prec emax n 0 false.

Definition dmul := SFmul prec emax.
Definition ddiv := SFdiv prec emax.
Definition dsub := SFsub prec emax.
End Double.

(** Truncation toward zero of a finite value. *)
Definition truncate (x : spec_float) : option Z :=
  match x with
  | S754_zero _ => Some 0
  | S754_finite s m e =>
      let a := match e with
               | Z0 => Zpos m
               | Zpos p => Zpos m * 2 ^ Zpos p
               | Zneg p => Zpos m / 2 ^ Zpos p
               end in
      Some (if s then - a else a)
  | S754_infinity _ | S754_nan => None
  end.

(** [static_cast<uint16_t>(x)]: the value is truncated; the conversion is
    undefined when the truncated value does not fit. *)
Definition to_uint16 (x : spec_float) : outcome Z :=
  match truncate x with
  | Some z => if (0 <=? z) && (z <=? 65535) then Ok z else Fault CastRange
  | None => Fault CastRange
  end.


(** ** The register driver *)

Section Driver.
Variables prec emax : Z.
(** Build-time configuration: [F_CPU] and [SYST_MAX_TIMERS] are macros;
    [MAX_INTERVAL] is a macro of [SysTimer.h], a floating constant in
    seconds. *)
Variable F_CPU : Z.
Variable SYST_MAX_TIMERS : Z.
Variable MAX_INTERVAL : spec_float.

(** The [switch (timerNum)] shared by the four functions, after the
    preprocessor: [case 0] is always there, [case 1] under
    [#if SYST_MAX_TIMERS >= 2], [case 2] and [case 3] under a nested
    [#if SYST_MAX_TIMERS == 4]; there is no [default]. *)
Definition switch_case (timerNum : Z) : option hwtimer :=
  match timerNum with
  | 0 => Some Timer1
  | 1 => if 2 <=? SYST_MAX_TIMERS then Some Timer3 else None
  | 2 => if (2 <=? SYST_MAX_TIMERS) && (SYST_MAX_TIMERS =? 4)
         then Some Timer4 else None
  | 3 => if (2 <=? SYST_MAX_TIMERS) && (SYST_MAX_TIMERS =? 4)
         then Some Timer5 else None
  | _ => None
  end.

Definition switch (timerNum : Z) (body : hwtimer -> mcu -> mcu)
    (m : mcu) : mcu :=
  match switch_case timerNum with
  | Some T => body T m
  | None => m
  end.

Definition stopTimer (timerNum : Z) (disableInterrupts : bool)
    (m : mcu) : mcu :=
  let m := if disableInterrupts then cli m else m in
  let m := switch timerNum
             (fun T m => write (TIMER_CONTROL T B) 0
                           (write (TIMER_CONTROL T A) 0 m)) m in
  if disableInterrupts then sei m else m.

Definition initTimer (timerNum : Z) (m : mcu) : mcu :=
  let m := cli m in
  let m := stopTimer timerNum false m in
  let m := switch timerNum
             (fun T m => or_assign (TIMER_MASK T) (_BV (TIMER_CTC T)) m) m in
  sei m.

Definition startTimer (timerNum : Z) (m : mcu) : mcu :=
  let m := cli m in
  let m := switch timerNum
             (fun T m => or_assign (TIMER_CONTROL T B)
                           (Z.lor (Z.lor (_BV CS10) (_BV CS12)) (_BV WGM12))
                           m) m in
  sei m.

(** [static_cast<uint16_t>((MAX_INTERVAL) * 1000.0)] *)
Definition maximum : outcome Z :=
  to_uint16 (dmul prec emax MAX_INTERVAL (double_of_Z prec emax 1000)).

(** The three lines from [elapsed] to [counter]. *)
Definition counter_of (interval : Z) : outcome Z :=
  let elapsed :=
    ddiv prec emax (double_of_Z prec emax interval)
                   (double_of_Z prec emax 1000) in
  let temp :=
    dsub prec emax
      (ddiv prec emax elapsed
         (ddiv prec emax (double_of_Z prec emax 1024)
                         (double_of_Z prec emax F_CPU)))
      (double_of_Z prec emax 1) in
  to_uint16 temp.

Definition setTimerInterval (timerNum msec : Z) (m : mcu)
    : outcome (mcu * Z) :=
  let m := cli m in
  let* maximum := maximum in
  let interval := constrain msec 1 maximum in
  let* counter := counter_of interval in
  let m := switch timerNum (fun T m => write (TIMER_CMR T) counter m) m in
  let m := sei m in
  Ok (m, interval).
End Driver.

(** ** Timer objects, the dispatch table and the interrupt shim *)

(** The members of [AVRTimer] that the translation unit reads or writes,
    and the channel and armed state that [disarm()] works on.  A function
    pointer and the opaque argument are machine words; 0 is null. *)
Record AVRTimer : Set := mkTimer {
  _timerNum    : Z;
  _callback    : Z;
  _callbackArg : Z;
  _repeating   : bool;
  _oneshot     : bool;
  _armed       : bool
}.

Definition set_oneshot (b : bool) (o : AVRTimer) : AVRTimer :=
  mkTimer (_timerNum o) (_callback o) (_callbackArg o) (_repeating o) b
          (_armed o).

Definition set_armed (b : bool) (o : AVRTimer) : AVRTimer :=
  mkTimer (_timerNum o) (_callback o) (_callbackArg o) (_repeating o)
          (_oneshot o) b.

Definition nullptr : Z := 0.

(** The machine, the timer objects by address, and
    [AVRTimer* _AVRTimerTable[SYST_MAX_TIMERS]]. *)
Record world : Type := mkWorld {
  hw : mcu;
  objects : gmap Z AVRTimer;
  _AVRTimerTable : list Z
}.

(** One entry per call the shim makes through a callback pointer:
    the pointer and the argument. *)
Definition call : Set := (Z * Z)%type.

(** [that->...]: reading through an object pointer. *)
Definition deref (that : Z) (w : world) : outcome AVRTimer :=
  if that =? nullptr then Fault NullDeref
  else match objects w !! that with
       | Some o => Ok o
       | None => Fault WildDeref
       end.

Definition store (that : Z) (o : AVRTimer) (w : world) : world :=
  mkWorld (hw w) (<[that := o]> (objects w)) (_AVRTimerTable w).

Section Shim.
Variable SYST_MAX_TIMERS : Z.
(** What running the function at a callback address does, given its
    argument: user code, unknown to the library. *)
Variable user_code : Z -> Z -> world -> world.

(** Modelled from the spec: [AVRTimer::disarm()], a member function whose
    body is not in [SysTimer_AVR.cpp].  It calls the register driver's
    stop with interrupts disabled, clears the dispatch table entry of the
    object's channel and leaves the object disarmed. *)
Definition disarm (that : Z) (w : world) : outcome world :=
  let* o := deref that w in
  let c := _timerNum o in
  let m := stopTimer SYST_MAX_TIMERS c true (hw w) in
  if (0 <=? c) && (c <? Z.of_nat (length (_AVRTimerTable w))) then
    Ok (mkWorld m (<[that := set_armed false o]> (objects w))
                (<[Z.to_nat c := nullptr]> (_AVRTimerTable w)))
  else Fault TableBounds.

Definition _AVRCommonHandler (that : Z) (w : world)
    : outcome (world * list call) :=
  let* o := deref that w in
  let* fired :=
    (if _repeating o || _oneshot o then
       if _callback o =? nullptr then Fault NullCall
       else Ok (user_code (_callback o) (_callbackArg o) w,
                [(_callback o, _callbackArg o)])
     else Ok (w, [])) in
  let w := fst fired in
  let* o := deref that w in
  if _oneshot o then
    let w := store that (set_oneshot false o) w in
    let* w := disarm that w in
    Ok (w, snd fired)
  else Ok (w, snd fired).

(** [TIMER1_COMPA_vect] serves channel 0, [TIMER3_COMPA_vect] channel 1,
    [TIMER4_COMPA_vect] channel 2 and [TIMER5_COMPA_vect] channel 3. *)
Definition vector_channel (T : hwtimer) : Z :=
  match T with
  | Timer1 => 0
  | Timer3 => 1
  | Timer4 => 2
  | Timer5 => 3
  end.

(** The preprocessor conditions around the four [ISR] definitions. *)
Definition vector_defined (T : hwtimer) : bool :=
  match T with
  | Timer1 => true
  | Timer3 => 2 <=? SYST_MAX_TIMERS
  | Timer4 | Timer5 => (2 <=? SYST_MAX_TIMERS) && (SYST_MAX_TIMERS =? 4)
  end.

(** [ISR(TIMERn_COMPA_vect) { _AVRCommonHandler(_AVRTimerTable[c]); }]:
    the body of the vector.  What the hardware does around it (clearing
    the interrupt flag on entry, [reti] on exit) is not part of it. *)
Definition ISR (T : hwtimer) (w : world) : outcome (world * list call) :=
  if vector_defined T then
    match _AVRTimerTable w !! Z.to_nat (vector_channel T) with
    | Some that => _AVRCommonHandler that w
    | None => Fault TableBounds
    end
  else Fault NoVector.
End Shim.

(** ** Observations and reference values *)

(** The control, mask and compare registers a channel is bound to, when the
    [switch] has a case for it. *)
Definition channel_regs (SYST_MAX_TIMERS timerNum : Z) (m : mcu)
    : option timer_regs :=
  match switch_case SYST_MAX_TIMERS timerNum with
  | Some T => Some (regs T m)
  | None => None
  end.

(** [m'] differs from [m] in no register of a channel other than
    [timerNum], nor in any register of a timer unit that is not the one
    [timerNum] is bound to. *)
Definition other_channels_unchanged (SYST_MAX_TIMERS timerNum : Z)
    (m m' : mcu) : Prop :=
  (forall c, c <> timerNum ->
     channel_regs SYST_MAX_TIMERS c m' = channel_regs SYST_MAX_TIMERS c m)
  /\ (forall T, switch_case SYST_MAX_TIMERS timerNum <> Some T ->
       regs T m' = regs T m).

(** Every timer register of the machine, the interrupt flag left out. *)
Definition timer_registers (m : mcu)
    : timer_regs * timer_regs * timer_regs * timer_regs :=
  (regs1 m, regs3 m, regs4 m, regs5 m).

(** All registers zero and interrupts off. *)
Definition mcu_reset : mcu :=
  let z := mkRegs 0 0 0 0 in mkMcu false z z z z.

(** The two formats [double] can have: IEEE binary64, and binary32, which
    is what avr-gcc gives [double] unless told otherwise. *)
Definition binary64 : Z * Z := (53, 1024).
Definition binary32 : Z * Z := (24, 128).

(** Modelled from the spec: [MAX_INTERVAL], a macro of [SysTimer.h], which is
    not among the sources.  It is the largest period, in seconds, that a
    16-bit comparator holds at prescaler 1024: 65535 ticks of [1024/F_CPU]
    seconds (4.19424 s at 16 MHz). *)
Definition MAX_INTERVAL_of (fmt : Z * Z) (F_CPU : Z) : spec_float :=
  dmul (fst fmt) (snd fmt)
    (ddiv (fst fmt) (snd fmt) (double_of_Z (fst fmt) (snd fmt) 1024)
                              (double_of_Z (fst fmt) (snd fmt) F_CPU))
    (double_of_Z (fst fmt) (snd fmt) 65535).

(** The driver built for a format, a clock and a channel count. *)
Definition maximum_at (fmt : Z * Z) (F_CPU : Z) : outcome Z :=
  maximum (fst fmt) (snd fmt) (MAX_INTERVAL_of fmt F_CPU).

Definition counter_at (fmt : Z * Z) (F_CPU interval : Z) : outcome Z :=
  counter_of (fst fmt) (snd fmt) F_CPU interval.

Definition setTimerInterval_at (fmt : Z * Z) (F_CPU SYST_MAX_TIMERS : Z)
    (timerNum msec : Z) (m : mcu) : outcome (mcu * Z) :=
  setTimerInterval (fst fmt) (snd fmt) F_CPU SYST_MAX_TIMERS
    (MAX_INTERVAL_of fmt F_CPU) timerNum msec m.

(** Requesting [msec] on channel [timerNum] of machine [m] returns [r] and
    leaves [cnt] in the compare register of the channel. *)
Definition programs (fmt : Z * Z) (F_CPU SYST_MAX_TIMERS : Z)
    (timerNum msec : Z) (m : mcu) (cnt r : Z) : Prop :=
  exists m' T,
    switch_case SYST_MAX_TIMERS timerNum = Some T
    /\ setTimerInterval_at fmt F_CPU SYST_MAX_TIMERS timerNum msec m
       = Ok (m', r)
    /\ OCRA (regs T m') = cnt.

(** The comparator value in the words of the specification, over the
    rationals: round-down of [period_seconds / tick_period_seconds - 1] with
    [tick_period_seconds = prescaler / clock_frequency_hz]. *)
Definition period_seconds (msec : Z) : Q := Qdiv (inject_Z msec) (inject_Z 1000).
Definition tick_period_seconds (F_CPU : Z) : Q :=
  Qdiv (inject_Z 1024) (inject_Z F_CPU).
Definition round_down_comparator (F_CPU msec : Z) : Z :=
  Qfloor (Qminus (Qdiv (period_seconds msec) (tick_period_seconds F_CPU))
                 (inject_Z 1)).

(** Checks over a whole range of periods, for evaluation. *)
Definition counter_exact (fmt : Z * Z) (F_CPU interval : Z) : bool :=
  match counter_at fmt F_CPU interval with
  | Ok c => c =? round_down_comparator F_CPU interval
  | Fault _ => false
  end.

Definition counter_near (fmt : Z * Z) (F_CPU interval : Z) : bool :=
  match counter_at fmt F_CPU interval with
  | Ok c => (c =? round_down_comparator F_CPU interval)
            || (c =? round_down_comparator F_CPU interval - 1)
  | Fault _ => false
  end.

Definition periods (last : Z) : list Z := seqZ 1 last.

(** A callback that leaves the machine alone, and a two-channel machine
    with one timer object at address 256. *)
Definition quiet_callback : Z -> Z -> world -> world := fun _ _ w => w.

(** The state at start-up of a build with [n] channels: interrupts on, no
    timer object, every dispatch table entry null. *)
Definition startup (n : nat) : world :=
  mkWorld (sei mcu_reset) ∅ (replicate n nullptr).

(** A callback that starts channel 1 of a two-channel build. *)
Definition busy_callback : Z -> Z -> world -> world :=
  fun _ _ w => mkWorld (startTimer 2 1 (hw w)) (objects w) (_AVRTimerTable w).

Definition world_of (table : list Z) (o : AVRTimer) : world :=
  mkWorld (sei mcu_reset) {[ 256 := o ]} table.

(** * Properties *)

(** ** Registers *)

Lemma regs_set_regs_same T r m : regs T (set_regs T r m) = r.
Proof. by destruct T. Qed.

Lemma regs_set_regs_other T T' r m :
  T <> T' -> regs T' (set_regs T r m) = regs T' m.
Proof. by destruct T, T'. Qed.

Lemma SREG_I_set_regs T r m : SREG_I (set_regs T r m) = SREG_I m.
Proof. by destruct T. Qed.

Lemma write_timer r v m :
  exists x, write r v m = set_regs (register_timer r) x m.
Proof. destruct r as [T [|]|T|T]; cbn [write register_timer]; eauto. Qed.

Lemma regs_write_other r v m T' :
  register_timer r <> T' -> regs T' (write r v m) = regs T' m.
Proof.
  intros Hne. destruct (write_timer r v m) as [x ->].
  by apply regs_set_regs_other.
Qed.

Lemma SREG_I_write r v m : SREG_I (write r v m) = SREG_I m.
Proof. destruct (write_timer r v m) as [x ->]. apply SREG_I_set_regs. Qed.

Lemma regs_cli T m : regs T (cli m) = regs T m.
Proof. by destruct T. Qed.

Lemma regs_sei T m : regs T (sei m) = regs T m.
Proof. by destruct T. Qed.

Lemma mcu_eq m m' :
  SREG_I m = SREG_I m' -> (forall T, regs T m = regs T m') -> m = m'.
Proof.
  destruct m, m'; cbn; intros -> H.
  pose proof (H Timer1) as H1. pose proof (H Timer3) as H3.
  pose proof (H Timer4) as H4. pose proof (H Timer5) as H5.
  cbn in *. by subst.
Qed.

Lemma timer_registers_eq m m' :
  (forall T, regs T m' = regs T m) -> timer_registers m' = timer_registers m.
Proof.
  intros H. unfold timer_registers.
  pose proof (H Timer1) as H1. pose proof (H Timer3) as H3.
  pose proof (H Timer4) as H4. pose proof (H Timer5) as H5.
  cbn in *. congruence.
Qed.

(** ** The channel switch *)

Section DriverFacts.
Variables prec emax F_CPU : Z.
(** [N] is [SYST_MAX_TIMERS]. *)
Variable N : Z.
Variable MAX_INTERVAL : spec_float.

Lemma switch_case_cases c :
  (c = 0 /\ switch_case N c = Some Timer1)
  \/ (c = 1 /\ switch_case N c = if 2 <=? N then Some Timer3 else None)
  \/ (c = 2 /\ switch_case N c
               = if (2 <=? N) && (N =? 4) then Some Timer4 else None)
  \/ (c = 3 /\ switch_case N c
               = if (2 <=? N) && (N =? 4) then Some Timer5 else None)
  \/ ((c < 0 \/ 3 < c) /\ switch_case N c = None).
Proof.
  unfold switch_case.
  destruct c as [|[[p|p|]|[p|p|]|]|p]; auto 10; right; right; right; right;
    (split; [lia | reflexivity]).
Qed.

Lemma switch_case_inj c c' T :
  switch_case N c = Some T -> switch_case N c' = Some T -> c = c'.
Proof.
  destruct (switch_case_cases c) as [[-> ->]|[[-> ->]|[[-> ->]|[[-> ->]|[_ ->]]]]];
    destruct (switch_case_cases c') as [[-> ->]|[[-> ->]|[[-> ->]|[[-> ->]|[_ ->]]]]];
    repeat case_match; congruence.
Qed.

Lemma switch_case_range c T :
  switch_case N c = Some T -> 0 <= c < 4.
Proof.
  destruct (switch_case_cases c) as [[-> _]|[[-> _]|[[-> _]|[[-> _]|[_ ->]]]]];
    (lia || discriminate).
Qed.

(** A channel at or past [SYST_MAX_TIMERS] has no case. *)
Lemma switch_case_beyond c :
  1 <= N -> N <= c -> switch_case N c = None.
Proof.
  intros HN Hc.
  destruct (switch_case_cases c) as [[-> ->]|[[-> ->]|[[-> ->]|[[-> ->]|[_ ->]]]]];
    repeat case_match; try reflexivity; lia.
Qed.

(** With 1, 2 or 4 channels every channel below the count has a case. *)
Lemma switch_case_valid c :
  N = 1 \/ N = 2 \/ N = 4 ->
  0 <= c < N -> is_Some (switch_case N c).
Proof.
  intros HN Hc.
  destruct (switch_case_cases c) as [[-> ->]|[[-> ->]|[[-> ->]|[[-> ->]|[? _]]]]];
    repeat case_match; eauto; lia.
Qed.

Lemma regs_switch_other c body m T' :
  (forall T m, T <> T' -> regs T' (body T m) = regs T' m) ->
  switch_case N c <> Some T' ->
  regs T' (switch N c body m) = regs T' m.
Proof.
  intros Hbody Hc. unfold switch.
  destruct (switch_case N c) as [T|]; [|done].
  apply Hbody. congruence.
Qed.

Lemma SREG_I_switch c body m :
  (forall T m, SREG_I (body T m) = SREG_I m) ->
  SREG_I (switch N c body m) = SREG_I m.
Proof.
  intros Hbody. unfold switch.
  by destruct (switch_case N c).
Qed.

Lemma switch_none c body m : switch_case N c = None -> switch N c body m = m.
Proof. unfold switch. by intros ->. Qed.

(** *** Frames of the four operations, by hardware timer *)

Lemma stopTimer_regs_other c d m T' :
  switch_case N c <> Some T' -> regs T' (stopTimer N c d m) = regs T' m.
Proof.
  intros Hc. unfold stopTimer.
  assert (forall m0, regs T'
            (switch N c (fun T m => write (TIMER_CONTROL T B) 0
                                    (write (TIMER_CONTROL T A) 0 m)) m0)
          = regs T' m0) as Hsw.
  { intros m0. apply regs_switch_other; [|done].
    intros T m1 Hne. by rewrite !regs_write_other. }
  destruct d; by rewrite ?regs_sei, Hsw, ?regs_cli.
Qed.

Lemma initTimer_regs_other c m T' :
  switch_case N c <> Some T' -> regs T' (initTimer N c m) = regs T' m.
Proof.
  intros Hc. unfold initTimer.
  rewrite regs_sei, regs_switch_other; [| |done].
  - by rewrite stopTimer_regs_other, regs_cli.
  - intros T m1 Hne. unfold or_assign. by rewrite regs_write_other.
Qed.

Lemma startTimer_regs_other c m T' :
  switch_case N c <> Some T' -> regs T' (startTimer N c m) = regs T' m.
Proof.
  intros Hc. unfold startTimer.
  rewrite regs_sei, regs_switch_other; [| |done].
  - by rewrite regs_cli.
  - intros T m1 Hne. unfold or_assign. by rewrite regs_write_other.
Qed.

(** [setTimerInterval] returns once both conversions are defined. *)
Lemma setTimerInterval_ok c msec m M cnt :
  maximum prec emax MAX_INTERVAL = Ok M ->
  counter_of prec emax F_CPU (constrain msec 1 M) = Ok cnt ->
  setTimerInterval prec emax F_CPU N MAX_INTERVAL c msec m
  = Ok (sei (switch N c (fun T m => write (TIMER_CMR T) cnt m) (cli m)),
        constrain msec 1 M).
Proof.
  intros HM Hcnt. unfold setTimerInterval.
  rewrite HM. cbn [obind]. by rewrite Hcnt.
Qed.

Lemma setTimerInterval_regs_other c cnt m T' :
  switch_case N c <> Some T' ->
  regs T' (sei (switch N c (fun T m => write (TIMER_CMR T) cnt m) (cli m)))
  = regs T' m.
Proof.
  intros Hc. rewrite regs_sei, regs_switch_other; [| |done].
  - by rewrite regs_cli.
  - intros T m1 Hne. by rewrite regs_write_other.
Qed.

Lemma frame_by_timer c m m' :
  (forall T, switch_case N c <> Some T -> regs T m' = regs T m) ->
  other_channels_unchanged N c m m'.
Proof.
  intros H. split; [|done].
  intros c' Hne. unfold channel_regs.
  destruct (switch_case N c') as [T|] eqn:Hc'; [|done].
  rewrite H; [done|]. intros Hc. apply Hne.
  by eapply switch_case_inj.
Qed.

(** *** What the operations do to the timer of their own channel *)

Lemma stopTimer_regs_same c d m T :
  switch_case N c = Some T ->
  regs T (stopTimer N c d m)
  = mkRegs 0 0 (TIMSK (regs T m)) (OCRA (regs T m)).
Proof.
  intros Hc. unfold stopTimer, switch. rewrite Hc.
  by destruct d, T.
Qed.

Lemma setTimerInterval_regs_same c cnt m T :
  switch_case N c = Some T ->
  0 <= cnt <= 65535 ->
  OCRA (regs T (sei (switch N c (fun T m => write (TIMER_CMR T) cnt m)
                       (cli m)))) = cnt.
Proof.
  intros Hc Hcnt. unfold switch. rewrite Hc.
  assert (cnt mod 2 ^ 16 = cnt) as E by (apply Z.mod_small; lia).
  destruct T; cbn -[Z.pow Z.modulo]; exact E.
Qed.

(** *** The interrupt flag *)

Lemma SREG_I_stopTimer c d m :
  SREG_I (stopTimer N c d m) = if d then true else SREG_I m.
Proof.
  unfold stopTimer. destruct d; [done|].
  apply SREG_I_switch. intros T m0. by rewrite !SREG_I_write.
Qed.

Lemma sei_cli m : sei (cli m) = sei m.
Proof. done. Qed.
End DriverFacts.

Lemma to_uint16_range x z : to_uint16 x = Ok z -> 0 <= z <= 65535.
Proof.
  unfold to_uint16. destruct (truncate x) as [t|]; [|done].
  destruct (Z.leb_spec 0 t), (Z.leb_spec t 65535); cbn; intros [= <-]; lia.
Qed.

Lemma constrain_clamp amt low high :
  low <= high -> constrain amt low high = Z.max low (Z.min amt high).
Proof.
  intros H. unfold constrain.
  destruct (Z.ltb_spec amt low), (Z.gtb_spec amt high); lia.
Qed.

(** ** The register driver: claims *)

(** C7. [stopTimer] is idempotent: for every channel and either value of
    [disableInterrupts], a second call leaves the machine exactly as the
    first call left it.  After one call the control registers of the channel
    are zero, and a call on a channel whose control registers are already
    zero changes no timer register. *)
Theorem stopTimer_idempotent (N c : Z) (d : bool) (m : mcu) :
  stopTimer N c d (stopTimer N c d m) = stopTimer N c d m
  /\ (forall T, switch_case N c = Some T ->
        TCCRA (regs T (stopTimer N c d m)) = 0
        /\ TCCRB (regs T (stopTimer N c d m)) = 0)
  /\ (forall T, switch_case N c = Some T ->
        TCCRA (regs T m) = 0 -> TCCRB (regs T m) = 0 ->
        timer_registers (stopTimer N c d m) = timer_registers m).
Proof.
  split; [|split].
  - apply mcu_eq.
    + rewrite !SREG_I_stopTimer. by destruct d.
    + intros T. destruct (decide (switch_case N c = Some T)) as [Hc|Hc].
      * by rewrite !(stopTimer_regs_same N c d _ T Hc).
      * by rewrite !stopTimer_regs_other.
  - intros T Hc. by rewrite (stopTimer_regs_same N c d m T Hc).
  - intros T Hc HA HB. apply timer_registers_eq. intros T'.
    destruct (decide (switch_case N c = Some T')) as [Hc'|Hc'].
    + rewrite (stopTimer_regs_same N c d m T' Hc').
      assert (T' = T) as -> by congruence.
      destruct (regs T m); cbn in *; congruence.
    + by rewrite stopTimer_regs_other.
Qed.

(** C8. Each driver operation on a channel leaves the control, mask and
    compare registers of every other channel, and of every timer unit other
    than its own, unchanged.  For [setTimerInterval] this is said of the
    machine it returns, which it does once its two conversions to
    [uint16_t] are defined. *)
Theorem driver_touches_own_channel_only
    (prec emax F_CPU N : Z) (MAX_INTERVAL : spec_float)
    (c msec M cnt : Z) (d : bool) (m : mcu) :
  maximum prec emax MAX_INTERVAL = Ok M ->
  counter_of prec emax F_CPU (constrain msec 1 M) = Ok cnt ->
  other_channels_unchanged N c m (stopTimer N c d m)
  /\ other_channels_unchanged N c m (initTimer N c m)
  /\ other_channels_unchanged N c m (startTimer N c m)
  /\ exists m',
       setTimerInterval prec emax F_CPU N MAX_INTERVAL c msec m
       = Ok (m', constrain msec 1 M)
       /\ other_channels_unchanged N c m m'.
Proof.
  intros HM Hcnt. split; [|split; [|split]].
  - apply frame_by_timer. intros T HT. by apply stopTimer_regs_other.
  - apply frame_by_timer. intros T HT. by apply initTimer_regs_other.
  - apply frame_by_timer. intros T HT. by apply startTimer_regs_other.
  - eexists. split.
    + by apply setTimerInterval_ok.
    + apply frame_by_timer. intros T HT.
      by apply setTimerInterval_regs_other.
Qed.

(** C9. For a channel id at or past [SYST_MAX_TIMERS] the [switch] has no
    case: [stopTimer], [initTimer] and [startTimer] write no timer register
    (only the interrupt flag moves), and [setTimerInterval] writes none
    either and still returns the clamped interval: the request brought into
    [1 .. maximum], that is [maximum] for a request above it, 1 for a
    request below 1 and the request itself in between. *)
Theorem out_of_range_channel_writes_nothing
    (prec emax F_CPU N : Z) (MAX_INTERVAL : spec_float)
    (c msec M cnt : Z) (d : bool) (m : mcu) :
  1 <= N -> N <= c ->
  maximum prec emax MAX_INTERVAL = Ok M ->
  1 <= M ->
  counter_of prec emax F_CPU (constrain msec 1 M) = Ok cnt ->
  stopTimer N c d m = (if d then sei m else m)
  /\ initTimer N c m = sei m
  /\ startTimer N c m = sei m
  /\ setTimerInterval prec emax F_CPU N MAX_INTERVAL c msec m
     = Ok (sei m, Z.max 1 (Z.min msec M))
  /\ timer_registers (stopTimer N c d m) = timer_registers m
  /\ timer_registers (initTimer N c m) = timer_registers m
  /\ timer_registers (startTimer N c m) = timer_registers m
  /\ timer_registers (sei m) = timer_registers m.
Proof.
  intros HN Hc HM H1 Hcnt.
  pose proof (switch_case_beyond N c HN Hc) as Hnone.
  assert (forall d, stopTimer N c d m = if d then sei m else m) as Hstop.
  { intros []; unfold stopTimer; by rewrite switch_none. }
  assert (initTimer N c m = sei m) as Hinit.
  { unfold initTimer, stopTimer. by rewrite !switch_none. }
  assert (startTimer N c m = sei m) as Hstart.
  { unfold startTimer. by rewrite switch_none. }
  split; [apply Hstop|]. split; [exact Hinit|]. split; [exact Hstart|].
  split.
  { rewrite (setTimerInterval_ok _ _ _ _ _ _ _ _ _ _ HM Hcnt).
    rewrite switch_none by done.
    by rewrite (constrain_clamp msec 1 M H1). }
  split; [rewrite Hstop; by destruct d|].
  split; [by rewrite Hinit|]. split; [by rewrite Hstart|]. reflexivity.
Qed.

(** C10. [initTimer], [startTimer], [setTimerInterval] and [stopTimer] with
    [disableInterrupts = true] end in [sei()]: whatever the interrupt flag
    was on entry, it is set on return, so the flag of a caller that had
    interrupts off is not restored.  [stopTimer] with
    [disableInterrupts = false] leaves the flag as it was. *)
Theorem sei_on_return
    (prec emax F_CPU N : Z) (MAX_INTERVAL : spec_float)
    (c msec M cnt : Z) (m : mcu) :
  maximum prec emax MAX_INTERVAL = Ok M ->
  counter_of prec emax F_CPU (constrain msec 1 M) = Ok cnt ->
  SREG_I (stopTimer N c true m) = true
  /\ SREG_I (initTimer N c m) = true
  /\ SREG_I (startTimer N c m) = true
  /\ (exists m',
        setTimerInterval prec emax F_CPU N MAX_INTERVAL c msec m
        = Ok (m', constrain msec 1 M)
        /\ SREG_I m' = true)
  /\ SREG_I (stopTimer N c false m) = SREG_I m.
Proof.
  intros HM Hcnt. split; [|split; [|split; [|split]]].
  - by rewrite SREG_I_stopTimer.
  - reflexivity.
  - reflexivity.
  - eexists. split; [by apply setTimerInterval_ok|reflexivity].
  - by rewrite SREG_I_stopTimer.
Qed.

(** C3. [setTimerInterval] clamps the requested period to
    [1 .. maximum], [maximum] being [MAX_INTERVAL] in milliseconds, and
    returns the clamped period, while the compare register of the channel
    receives the counter value: a request above [maximum] comes back as
    [maximum], a request below 1 comes back as 1, and a request in between
    comes back unchanged. *)
Theorem setTimerInterval_returns_clamped_period
    (prec emax F_CPU N : Z) (MAX_INTERVAL : spec_float)
    (c msec M cnt : Z) (m : mcu) :
  maximum prec emax MAX_INTERVAL = Ok M ->
  1 <= M ->
  counter_of prec emax F_CPU (constrain msec 1 M) = Ok cnt ->
  exists m' r,
    setTimerInterval prec emax F_CPU N MAX_INTERVAL c msec m = Ok (m', r)
    /\ r = Z.max 1 (Z.min msec M)
    /\ 1 <= r <= M
    /\ (M < msec -> r = M)
    /\ (msec < 1 -> r = 1)
    /\ (1 <= msec <= M -> r = msec)
    /\ (forall T, switch_case N c = Some T -> OCRA (regs T m') = cnt).
Proof.
  intros HM H1 Hcnt. eexists _, _. split.
  { by apply setTimerInterval_ok. }
  rewrite constrain_clamp by done.
  repeat split; try lia.
  intros T HT. apply setTimerInterval_regs_same; [done|].
  by eapply to_uint16_range.
Qed.

(** ** Interval arithmetic at 16 MHz *)

(** The formula of the specification in integer arithmetic. *)
Lemma round_down_comparator_Z F msec :
  0 < F -> round_down_comparator F msec = msec * F / 1024000 - 1.
Proof.
  intros HF. unfold round_down_comparator, period_seconds, tick_period_seconds.
  assert (Qeq (Qminus (Qdiv (Qdiv (inject_Z msec) (inject_Z 1000))
                            (Qdiv (inject_Z 1024) (inject_Z F)))
                      (inject_Z 1))
              (Qmake (msec * F - 1024000) 1024000)) as E.
  { assert (~ Qeq (inject_Z F) (inject_Z 0)) as HF0.
    { rewrite inject_Z_injective. lia. }
    apply Qeq_trans
      with (y := Qdiv (Qminus (Qmult (inject_Z msec) (inject_Z F))
                              (inject_Z 1024000))
                      (inject_Z 1024000)).
    - field. exact HF0.
    - unfold Qeq, Qdiv, Qminus, Qplus, Qopp, Qmult, Qinv, inject_Z; simpl.
      lia. }
  rewrite (Qfloor_comp _ _ E). unfold Qfloor.
  replace (msec * F - 1024000) with (msec * F + (-1) * 1024000) by lia.
  rewrite Z.div_add by lia. lia.
Qed.

Lemma in_periods i last : 1 <= i <= last -> In i (periods last).
Proof.
  intros H. apply list_elem_of_In, elem_of_seqZ. lia.
Qed.

Lemma maximum_16MHz_binary64 : maximum_at binary64 16000000 = Ok 4194.
Proof. vm_compute. reflexivity. Qed.

Lemma maximum_16MHz_binary32 : maximum_at binary32 16000000 = Ok 4194.
Proof. vm_compute. reflexivity. Qed.

(** Every period from 1 to 4194 ms, evaluated. *)
Lemma counters_16MHz_binary64 :
  forallb (counter_exact binary64 16000000) (periods 4194) = true.
Proof. vm_compute. reflexivity. Qed.

Lemma counters_16MHz_binary32 :
  forallb (counter_near binary32 16000000) (periods 4194) = true.
Proof. vm_compute. reflexivity. Qed.

Lemma counter_16MHz_binary64 i :
  1 <= i <= 4194 ->
  counter_at binary64 16000000 i = Ok (round_down_comparator 16000000 i).
Proof.
  intros Hi.
  pose proof (proj1 (forallb_forall _ _) counters_16MHz_binary64 i
                (in_periods i 4194 Hi)) as H.
  unfold counter_exact in H.
  destruct (counter_at binary64 16000000 i) as [cnt|]; [|done].
  apply Z.eqb_eq in H. by subst.
Qed.

Lemma counter_16MHz_binary32 i :
  1 <= i <= 4194 ->
  exists cnt,
    counter_at binary32 16000000 i = Ok cnt
    /\ (cnt = round_down_comparator 16000000 i
        \/ cnt = round_down_comparator 16000000 i - 1).
Proof.
  intros Hi.
  pose proof (proj1 (forallb_forall _ _) counters_16MHz_binary32 i
                (in_periods i 4194 Hi)) as H.
  unfold counter_near in H.
  destruct (counter_at binary32 16000000 i) as [cnt|]; [|done].
  exists cnt. split; [done|].
  apply orb_true_iff in H as [H|H]; apply Z.eqb_eq in H; auto.
Qed.

Lemma constrain_range msec M : 1 <= M -> 1 <= constrain msec 1 M <= M.
Proof. intros H. rewrite constrain_clamp by done. lia. Qed.

Lemma programs_intro fmt F N c msec m M cnt T :
  switch_case N c = Some T ->
  maximum_at fmt F = Ok M ->
  counter_at fmt F (constrain msec 1 M) = Ok cnt ->
  programs fmt F N c msec m cnt (constrain msec 1 M).
Proof.
  intros HT HM Hcnt. eexists _, T. split; [done|]. split.
  - unfold setTimerInterval_at. by apply setTimerInterval_ok.
  - apply setTimerInterval_regs_same; [done|].
    by eapply to_uint16_range.
Qed.

Lemma programs_functional fmt F N c msec m cnt r cnt' r' :
  programs fmt F N c msec m cnt r ->
  programs fmt F N c msec m cnt' r' ->
  cnt = cnt' /\ r = r'.
Proof.
  intros (m1 & T1 & HT1 & H1 & <-) (m2 & T2 & HT2 & H2 & <-).
  rewrite H1 in H2. injection H2 as -> ->.
  rewrite HT1 in HT2. by injection HT2 as ->.
Qed.

(** C4, amended.  At 16 MHz, for every request and every channel that has a
    case, the compare register receives round-down of
    [period_seconds / tick_period_seconds - 1] of the clamped period when
    [double] is IEEE binary64; when [double] is the 32-bit format it receives
    that value or the value one below it. *)
Theorem comparator_16MHz (N c msec : Z) (T : hwtimer) (m : mcu) :
  switch_case N c = Some T ->
  programs binary64 16000000 N c msec m
    (round_down_comparator 16000000 (constrain msec 1 4194))
    (constrain msec 1 4194)
  /\ exists cnt,
       programs binary32 16000000 N c msec m cnt (constrain msec 1 4194)
       /\ (cnt = round_down_comparator 16000000 (constrain msec 1 4194)
           \/ cnt = round_down_comparator 16000000 (constrain msec 1 4194) - 1).
Proof.
  intros HT.
  assert (1 <= constrain msec 1 4194 <= 4194) as Hi
    by (apply constrain_range; lia).
  split.
  - eapply programs_intro; [done|apply maximum_16MHz_binary64|].
    by apply counter_16MHz_binary64.
  - destruct (counter_16MHz_binary32 _ Hi) as (cnt & Hcnt & Hnear).
    exists cnt. split; [|done].
    eapply programs_intro; [done|apply maximum_16MHz_binary32|done].
Qed.

Lemma comparator_16MHz_witness :
  switch_case 2 1 = Some Timer3
  /\ programs binary64 16000000 2 1 520 mcu_reset 8124 520.
Proof.
  split; [reflexivity|].
  apply (comparator_16MHz 2 1 520 Timer3 mcu_reset). reflexivity.
Defined.

(** C4 as stated fails: with the 32-bit [double] of avr-gcc at 16 MHz a
    request of 520 ms programs 8123 where the formula gives 8124, and with a
    binary64 [double] at 12 MHz a request of 288 ms programs 3373 where the
    formula gives 3374. *)
Lemma comparator_below_round_down :
  (programs binary32 16000000 2 0 520 mcu_reset 8123 520
   /\ round_down_comparator 16000000 520 = 8124
   /\ ~ programs binary32 16000000 2 0 520 mcu_reset
          (round_down_comparator 16000000 520) 520)
  /\ (maximum_at binary64 12000000 = Ok 5592
      /\ programs binary64 12000000 2 0 288 mcu_reset 3373 288
      /\ round_down_comparator 12000000 288 = 3374
      /\ ~ programs binary64 12000000 2 0 288 mcu_reset
             (round_down_comparator 12000000 288) 288).
Proof.
  assert (programs binary32 16000000 2 0 520 mcu_reset 8123 520) as H32.
  { apply (programs_intro binary32 16000000 2 0 520 mcu_reset 4194 8123 Timer1);
      vm_compute; reflexivity. }
  assert (programs binary64 12000000 2 0 288 mcu_reset 3373 288) as H64.
  { apply (programs_intro binary64 12000000 2 0 288 mcu_reset 5592 3373 Timer1);
      vm_compute; reflexivity. }
  split; [split; [done|split]|split; [|split; [done|split]]].
  - vm_compute. reflexivity.
  - intros H. destruct (programs_functional _ _ _ _ _ _ _ _ _ _ H32 H) as [E _].
    vm_compute in E. discriminate.
  - vm_compute. reflexivity.
  - vm_compute. reflexivity.
  - intros H. destruct (programs_functional _ _ _ _ _ _ _ _ _ _ H64 H) as [E _].
    vm_compute in E. discriminate.
Qed.

Lemma programs_channel0_16MHz fmt N msec m cnt r :
  maximum_at fmt 16000000 = Ok 4194 ->
  constrain msec 1 4194 = r ->
  counter_at fmt 16000000 r = Ok cnt ->
  programs fmt 16000000 N 0 msec m cnt r.
Proof.
  intros HM <- Hcnt.
  by apply (programs_intro fmt 16000000 N 0 msec m 4194 cnt Timer1).
Qed.

(** C5, amended.  At 16 MHz and prescaler 1024, with either format of
    [double] and on any machine: a request of 1 ms programs comparator 14
    and returns 1; a request of 4194 ms programs comparator 65530 and
    returns 4194; a request of 5000 ms is clamped to 4194 ms, the maximum,
    and programs 65530 as well.  4194 ms is the last period whose counter
    fits 16 bits: that of 4195 ms does not. *)
Theorem scenario_16MHz (N : Z) (m : mcu) :
  (programs binary64 16000000 N 0 1 m 14 1
   /\ programs binary64 16000000 N 0 4194 m 65530 4194
   /\ programs binary64 16000000 N 0 5000 m 65530 4194)
  /\ (programs binary32 16000000 N 0 1 m 14 1
      /\ programs binary32 16000000 N 0 4194 m 65530 4194
      /\ programs binary32 16000000 N 0 5000 m 65530 4194)
  /\ maximum_at binary64 16000000 = Ok 4194
  /\ maximum_at binary32 16000000 = Ok 4194
  /\ counter_at binary64 16000000 4195 = Fault CastRange
  /\ counter_at binary32 16000000 4195 = Fault CastRange.
Proof.
  split; [|split; [|split; [|split; [|split]]]].
  - split; [|split];
      (apply programs_channel0_16MHz;
       [exact maximum_16MHz_binary64 | vm_compute; reflexivity ..]).
  - split; [|split];
      (apply programs_channel0_16MHz;
       [exact maximum_16MHz_binary32 | vm_compute; reflexivity ..]).
  - exact maximum_16MHz_binary64.
  - exact maximum_16MHz_binary32.
  - vm_compute. reflexivity.
  - vm_compute. reflexivity.
Qed.

(** C5 as stated fails: 4194 ms does not program comparator 65534. *)
Lemma comparator_4194ms_is_not_65534 :
  (programs binary64 16000000 2 0 4194 mcu_reset 65530 4194
   /\ ~ programs binary64 16000000 2 0 4194 mcu_reset 65534 4194)
  /\ (programs binary32 16000000 2 0 4194 mcu_reset 65530 4194
      /\ ~ programs binary32 16000000 2 0 4194 mcu_reset 65534 4194).
Proof.
  assert (forall fmt,
            maximum_at fmt 16000000 = Ok 4194 ->
            counter_at fmt 16000000 4194 = Ok 65530 ->
            programs fmt 16000000 2 0 4194 mcu_reset 65530 4194
            /\ ~ programs fmt 16000000 2 0 4194 mcu_reset 65534 4194) as H.
  { intros fmt HM Hcnt.
    assert (programs fmt 16000000 2 0 4194 mcu_reset 65530 4194) as Hp
      by (by apply programs_channel0_16MHz).
    split; [done|]. intros Hq.
    destruct (programs_functional _ _ _ _ _ _ _ _ _ _ Hp Hq) as [E _].
    discriminate. }
  split; apply H; vm_compute; reflexivity.
Qed.

(** ** The interrupt shim *)

Section ShimFacts.
Variable N : Z.
Variable user_code : Z -> Z -> world -> world.

Lemma deref_null w : deref nullptr w = Fault NullDeref.
Proof. reflexivity. Qed.



Lemma handler_null w :
  _AVRCommonHandler N user_code nullptr w = Fault NullDeref.
Proof. reflexivity. Qed.

(** Neither flag set: no call and nothing written. *)
Lemma handler_idle that o w :
  deref that w = Ok o ->
  _repeating o = false -> _oneshot o = false ->
  _AVRCommonHandler N user_code that w = Ok (w, []).
Proof.
  intros Hd Hr Ho. unfold _AVRCommonHandler.
  rewrite Hd; cbn. rewrite Hr, Ho; cbn. rewrite Hd; cbn. by rewrite Ho.
Qed.

(** A flag set and a null callback: the call goes through the null
    pointer. *)
Lemma handler_null_callback that o w :
  deref that w = Ok o ->
  _callback o = nullptr ->
  _repeating o || _oneshot o = true ->
  _AVRCommonHandler N user_code that w = Fault NullCall.
Proof.
  intros Hd Hcb Hmode. unfold _AVRCommonHandler.
  rewrite Hd; cbn. by rewrite Hmode, Hcb.
Qed.


End ShimFacts.

(** C1, amended.  The shim of a channel hands the dispatch table entry to
    the common handler as it is, with no test for null: a null entry is
    dereferenced by the handler's first read (a fault, before any callback
    or write), and the shim returns with no callback invoked and no state or
    register changed when the entry is a timer object whose mode is neither
    repeating nor one-shot. *)
Theorem shim_hands_entry_over_unchecked
    (N : Z) (user_code : Z -> Z -> world -> world) (T : hwtimer) (w : world) :
  vector_defined N T = true ->
  (forall that,
     _AVRTimerTable w !! Z.to_nat (vector_channel T) = Some that ->
     ISR N user_code T w = _AVRCommonHandler N user_code that w)
  /\ (_AVRTimerTable w !! Z.to_nat (vector_channel T) = Some nullptr ->
      ISR N user_code T w = Fault NullDeref)
  /\ (forall that o,
        _AVRTimerTable w !! Z.to_nat (vector_channel T) = Some that ->
        deref that w = Ok o ->
        _repeating o = false -> _oneshot o = false ->
        ISR N user_code T w = Ok (w, [])).
Proof.
  intros Hv. unfold ISR. rewrite Hv. split; [|split].
  - by intros that ->.
  - by intros ->.
  - intros that o -> Hd Hr Ho. by eapply handler_idle.
Qed.

Lemma shim_hands_entry_over_unchecked_witness :
  vector_defined 2 Timer3 = true
  /\ ISR 2 busy_callback Timer3 (startup 2) = Fault NullDeref.
Proof.
  split; [reflexivity|].
  apply (shim_hands_entry_over_unchecked 2 busy_callback Timer3 (startup 2));
    reflexivity.
Defined.

(** C1 as stated fails: at start-up every entry is null, and an interrupt
    on channel 0 dereferences the null entry instead of returning. *)
Lemma spurious_interrupt_dereferences_null :
  _AVRTimerTable (startup 2) !! 0%nat = Some nullptr
  /\ ISR 2 quiet_callback Timer1 (startup 2) = Fault NullDeref
  /\ ~ (exists out, ISR 2 quiet_callback Timer1 (startup 2) = Ok out).
Proof.
  split; [reflexivity|]. split; [reflexivity|].
  intros [out H]. discriminate H.
Qed.

(** C2, amended.  The handler does not test the callback pointer: for a
    timer object whose callback is null it calls through the null pointer (a
    fault) when the mode is repeating or one-shot, and the fire is a silent
    no-op, with no invocation and nothing changed, only when the mode is
    neither. *)
Theorem null_callback_is_not_tested
    (N : Z) (user_code : Z -> Z -> world -> world)
    (that : Z) (o : AVRTimer) (w : world) :
  deref that w = Ok o ->
  _callback o = nullptr ->
  _AVRCommonHandler N user_code that w
  = if _repeating o || _oneshot o then Fault NullCall else Ok (w, []).
Proof.
  intros Hd Hcb.
  destruct (_repeating o || _oneshot o) eqn:Hmode.
  - by eapply handler_null_callback.
  - apply orb_false_iff in Hmode as [Hr Ho]. by eapply handler_idle.
Qed.

Lemma null_callback_is_not_tested_witness :
  _AVRCommonHandler 2 busy_callback 256
    (world_of [256; nullptr] (mkTimer 0 nullptr 7 false true true))
  = Fault NullCall
  /\ _AVRCommonHandler 2 busy_callback 256
       (world_of [256; nullptr] (mkTimer 0 nullptr 7 false false true))
     = Ok (world_of [256; nullptr] (mkTimer 0 nullptr 7 false false true), []).
Proof.
  split.
  - apply (null_callback_is_not_tested 2 busy_callback 256
             (mkTimer 0 nullptr 7 false true true)); reflexivity.
  - apply (null_callback_is_not_tested 2 busy_callback 256
             (mkTimer 0 nullptr 7 false false true)); reflexivity.
Defined.

(** C2 as stated fails: an armed repeating timer on channel 0 with a null
    callback makes the interrupt call through the null pointer. *)
Lemma armed_null_callback_is_called :
  _AVRTimerTable (world_of [256; nullptr] (mkTimer 0 nullptr 7 true false true))
    !! 0%nat = Some 256
  /\ ISR 2 quiet_callback Timer1
       (world_of [256; nullptr] (mkTimer 0 nullptr 7 true false true))
     = Fault NullCall
  /\ ~ (exists out,
          ISR 2 quiet_callback Timer1
            (world_of [256; nullptr] (mkTimer 0 nullptr 7 true false true))
          = Ok out).
Proof.
  assert (ISR 2 quiet_callback Timer1
            (world_of [256; nullptr] (mkTimer 0 nullptr 7 true false true))
          = Fault NullCall) as H by reflexivity.
  split; [reflexivity|]. split; [exact H|].
  intros [out Hout]. rewrite H in Hout. discriminate Hout.
Qed.



(** ** Witnesses of the driver claims, on a two-channel build at 16 MHz *)

Lemma driver_touches_own_channel_only_witness :
  other_channels_unchanged 2 0 mcu_reset (stopTimer 2 0 true mcu_reset)
  /\ other_channels_unchanged 2 0 mcu_reset (initTimer 2 0 mcu_reset)
  /\ other_channels_unchanged 2 0 mcu_reset (startTimer 2 0 mcu_reset)
  /\ exists m',
       setTimerInterval 53 1024 16000000 2
         (MAX_INTERVAL_of binary64 16000000) 0 5000 mcu_reset
       = Ok (m', constrain 5000 1 4194)
       /\ other_channels_unchanged 2 0 mcu_reset m'.
Proof.
  apply (driver_touches_own_channel_only 53 1024 16000000 2
           (MAX_INTERVAL_of binary64 16000000) 0 5000 4194 65530 true
           mcu_reset); vm_compute; reflexivity.
Defined.

Lemma out_of_range_channel_writes_nothing_witness :
  stopTimer 2 2 true mcu_reset = sei mcu_reset
  /\ initTimer 2 2 mcu_reset = sei mcu_reset
  /\ startTimer 2 2 mcu_reset = sei mcu_reset
  /\ setTimerInterval 53 1024 16000000 2
       (MAX_INTERVAL_of binary64 16000000) 2 0 mcu_reset
     = Ok (sei mcu_reset, 1)
  /\ timer_registers (stopTimer 2 2 true mcu_reset) = timer_registers mcu_reset
  /\ timer_registers (initTimer 2 2 mcu_reset) = timer_registers mcu_reset
  /\ timer_registers (startTimer 2 2 mcu_reset) = timer_registers mcu_reset
  /\ timer_registers (sei mcu_reset) = timer_registers mcu_reset.
Proof.
  apply (out_of_range_channel_writes_nothing 53 1024 16000000 2
           (MAX_INTERVAL_of binary64 16000000) 2 0 4194 14 true
           mcu_reset);
    [lia | lia | vm_compute; reflexivity | lia | vm_compute; reflexivity].
Defined.

Lemma sei_on_return_witness :
  SREG_I mcu_reset = false
  /\ SREG_I (stopTimer 2 0 true mcu_reset) = true
  /\ SREG_I (initTimer 2 0 mcu_reset) = true
  /\ SREG_I (startTimer 2 0 mcu_reset) = true
  /\ (exists m',
        setTimerInterval 24 128 16000000 2
          (MAX_INTERVAL_of binary32 16000000) 0 520 mcu_reset
        = Ok (m', constrain 520 1 4194)
        /\ SREG_I m' = true)
  /\ SREG_I (stopTimer 2 0 false mcu_reset) = SREG_I mcu_reset.
Proof.
  split; [reflexivity|].
  apply (sei_on_return 24 128 16000000 2
           (MAX_INTERVAL_of binary32 16000000) 0 520 4194 8123 mcu_reset);
    vm_compute; reflexivity.
Defined.

Lemma setTimerInterval_returns_clamped_period_witness :
  exists m' r,
    setTimerInterval 53 1024 16000000 2
      (MAX_INTERVAL_of binary64 16000000) 0 5000 mcu_reset = Ok (m', r)
    /\ r = Z.max 1 (Z.min 5000 4194)
    /\ 1 <= r <= 4194
    /\ (4194 < 5000 -> r = 4194)
    /\ (5000 < 1 -> r = 1)
    /\ (1 <= 5000 <= 4194 -> r = 5000)
    /\ (forall T, switch_case 2 0 = Some T -> OCRA (regs T m') = 65530).
Proof.
  apply (setTimerInterval_returns_clamped_period 53 1024 16000000 2
           (MAX_INTERVAL_of binary64 16000000) 0 5000 4194 65530 mcu_reset);
    [vm_compute; reflexivity | lia | vm_compute; reflexivity].
Defined.

(** * Further properties of the register driver *)

(** ** Bits of a register after [|=] *)

Lemma testbit_lor_mod8 a v i :
  0 <= i ->
  Z.testbit (Z.lor a v mod 2 ^ 8) i
  = (i <? 8) && (Z.testbit a i || Z.testbit v i).
Proof.
  intros Hi. destruct (Z.ltb_spec i 8).
  - rewrite Z.mod_pow2_bits_low by lia. by rewrite Z.lor_spec.
  - by rewrite Z.mod_pow2_bits_high by lia.
Qed.

Lemma lor_mod8_twice a v :
  Z.lor (Z.lor a v mod 2 ^ 8) v mod 2 ^ 8 = Z.lor a v mod 2 ^ 8.
Proof.
  apply Z.bits_inj'. intros i Hi.
  rewrite !testbit_lor_mod8 by done.
  destruct (i <? 8), (Z.testbit a i), (Z.testbit v i); reflexivity.
Qed.

(** ** What each operation leaves in the registers of its own timer *)

Lemma initTimer_regs_same N c m T :
  switch_case N c = Some T ->
  regs T (initTimer N c m)
  = mkRegs 0 0 (Z.lor (TIMSK (regs T m)) (_BV (TIMER_CTC T)) mod 2 ^ 8)
           (OCRA (regs T m)).
Proof.
  intros Hc. unfold initTimer, stopTimer, switch, or_assign. rewrite Hc.
  by destruct T.
Qed.

Lemma startTimer_regs_same N c m T :
  switch_case N c = Some T ->
  regs T (startTimer N c m)
  = mkRegs (TCCRA (regs T m))
           (Z.lor (TCCRB (regs T m))
                  (Z.lor (Z.lor (_BV CS10) (_BV CS12)) (_BV WGM12)) mod 2 ^ 8)
           (TIMSK (regs T m)) (OCRA (regs T m)).
Proof.
  intros Hc. unfold startTimer, switch, or_assign. rewrite Hc.
  destruct T; cbn; by destruct (regs1 m), (regs3 m), (regs4 m), (regs5 m).
Qed.

Lemma compare_write_regs_same N c cnt m T :
  switch_case N c = Some T ->
  regs T (sei (switch N c (fun T m => write (TIMER_CMR T) cnt m) (cli m)))
  = mkRegs (TCCRA (regs T m)) (TCCRB (regs T m)) (TIMSK (regs T m))
           (cnt mod 2 ^ 16).
Proof.
  intros Hc. unfold switch. rewrite Hc. by destruct T.
Qed.

Lemma SREG_I_initTimer N c m : SREG_I (initTimer N c m) = true.
Proof. reflexivity. Qed.

Lemma SREG_I_startTimer N c m : SREG_I (startTimer N c m) = true.
Proof. reflexivity. Qed.

(** Rewriting the registers of timer [T] after any of the operations,
    whether [T] is the timer of the channel or another one. *)
Ltac driver_regs :=
  repeat first
    [ rewrite stopTimer_regs_same by eassumption
    | rewrite initTimer_regs_same by eassumption
    | rewrite startTimer_regs_same by eassumption
    | rewrite compare_write_regs_same by eassumption
    | rewrite stopTimer_regs_other by eassumption
    | rewrite initTimer_regs_other by eassumption
    | rewrite startTimer_regs_other by eassumption
    | rewrite setTimerInterval_regs_other by eassumption ];
  cbn [TCCRA TCCRB TIMSK OCRA].

(** Two machines are compared flag by flag and timer by timer, each timer
    being the one of channel [c], the one of channel [c'], or neither. *)
Ltac by_timer N c c' :=
  apply mcu_eq;
  [ rewrite ?SREG_I_stopTimer; reflexivity
  | let T := fresh "T" in
    intros T;
    destruct (decide (switch_case N c = Some T));
    destruct (decide (switch_case N c' = Some T));
    driver_regs ].

(** X1.  [initTimer] on a channel that has a case leaves the channel
    stopped, both control registers zero, with the compare-match interrupt
    bit [OCIEnA] set in the mask register, every other bit of the mask and
    the compare register as they were, and interrupts enabled. *)
Theorem initTimer_stops_and_enables_compare_interrupt
    (N c : Z) (T : hwtimer) (m : mcu) :
  switch_case N c = Some T ->
  TCCRA (regs T (initTimer N c m)) = 0
  /\ TCCRB (regs T (initTimer N c m)) = 0
  /\ OCRA (regs T (initTimer N c m)) = OCRA (regs T m)
  /\ Z.testbit (TIMSK (regs T (initTimer N c m))) (TIMER_CTC T) = true
  /\ (forall i, 0 <= i < 8 -> i <> TIMER_CTC T ->
        Z.testbit (TIMSK (regs T (initTimer N c m))) i
        = Z.testbit (TIMSK (regs T m)) i)
  /\ SREG_I (initTimer N c m) = true.
Proof.
  intros Hc. rewrite (initTimer_regs_same N c m T Hc). cbn [TCCRA TCCRB TIMSK OCRA].
  split; [done|]. split; [done|]. split; [done|]. split; [|split; [|done]].
  - rewrite testbit_lor_mod8 by done. cbn. by rewrite orb_true_r.
  - intros i Hi Hne. rewrite testbit_lor_mod8 by lia.
    destruct (Z.ltb_spec i 8); [|lia]. cbn [andb].
    unfold _BV. rewrite Z.shiftl_1_l, Z.pow2_bits_eqb by done.
    destruct (Z.eqb_spec (TIMER_CTC T) i); [done|]. by rewrite orb_false_r.
Qed.

Lemma initTimer_stops_and_enables_compare_interrupt_witness :
  TCCRA (regs Timer3 (initTimer 2 1 (startTimer 2 1 mcu_reset))) = 0
  /\ TCCRB (regs Timer3 (initTimer 2 1 (startTimer 2 1 mcu_reset))) = 0
  /\ OCRA (regs Timer3 (initTimer 2 1 (startTimer 2 1 mcu_reset)))
     = OCRA (regs Timer3 (startTimer 2 1 mcu_reset))
  /\ Z.testbit (TIMSK (regs Timer3 (initTimer 2 1 (startTimer 2 1 mcu_reset))))
       (TIMER_CTC Timer3) = true
  /\ (forall i, 0 <= i < 8 -> i <> TIMER_CTC Timer3 ->
        Z.testbit (TIMSK (regs Timer3
                            (initTimer 2 1 (startTimer 2 1 mcu_reset)))) i
        = Z.testbit (TIMSK (regs Timer3 (startTimer 2 1 mcu_reset))) i)
  /\ SREG_I (initTimer 2 1 (startTimer 2 1 mcu_reset)) = true.
Proof.
  apply (initTimer_stops_and_enables_compare_interrupt 2 1 Timer3
           (startTimer 2 1 mcu_reset)).
  reflexivity.
Defined.

(** X2.  [startTimer] on a channel that has a case sets the bits [CS10],
    [CS12] and [WGM12] of [TCCRnB] and leaves every other bit of it, and the
    registers [TCCRnA], [TIMSKn] and [OCRnA], as they were; interrupts are
    enabled on return.  Bits already set stay set: the clock selection is
    or-ed in, not assigned. *)
Theorem startTimer_sets_clock_and_ctc_bits
    (N c : Z) (T : hwtimer) (m : mcu) :
  switch_case N c = Some T ->
  TCCRA (regs T (startTimer N c m)) = TCCRA (regs T m)
  /\ TIMSK (regs T (startTimer N c m)) = TIMSK (regs T m)
  /\ OCRA (regs T (startTimer N c m)) = OCRA (regs T m)
  /\ (forall i, 0 <= i < 8 ->
        Z.testbit (TCCRB (regs T (startTimer N c m))) i
        = (i =? CS10) || (i =? CS12) || (i =? WGM12)
          || Z.testbit (TCCRB (regs T m)) i)
  /\ SREG_I (startTimer N c m) = true.
Proof.
  intros Hc. rewrite (startTimer_regs_same N c m T Hc).
  cbn [TCCRA TCCRB TIMSK OCRA].
  split; [done|]. split; [done|]. split; [done|]. split; [|done].
  intros i Hi. rewrite testbit_lor_mod8 by lia.
  destruct (Z.ltb_spec i 8); [|lia]. cbn [andb].
  unfold _BV. rewrite !Z.lor_spec, !Z.shiftl_1_l, !Z.pow2_bits_eqb by done.
  rewrite (Z.eqb_sym CS10), (Z.eqb_sym CS12), (Z.eqb_sym WGM12).
  destruct (i =? CS10), (i =? CS12), (i =? WGM12),
    (Z.testbit (TCCRB (regs T m)) i); reflexivity.
Qed.

Lemma startTimer_sets_clock_and_ctc_bits_witness :
  TCCRB (regs Timer1 (startTimer 1 0 mcu_reset)) = 13
  /\ (forall i, 0 <= i < 8 ->
        Z.testbit (TCCRB (regs Timer1 (startTimer 1 0 mcu_reset))) i
        = (i =? CS10) || (i =? CS12) || (i =? WGM12)
          || Z.testbit (TCCRB (regs Timer1 mcu_reset)) i).
Proof.
  split; [reflexivity|].
  apply (startTimer_sets_clock_and_ctc_bits 1 0 Timer1 mcu_reset).
  reflexivity.
Defined.

(** X3.  [initTimer] and [startTimer] are idempotent: a second call on the
    same channel leaves the machine as the first call left it. *)
Theorem initTimer_startTimer_idempotent (N c : Z) (m : mcu) :
  initTimer N c (initTimer N c m) = initTimer N c m
  /\ startTimer N c (startTimer N c m) = startTimer N c m.
Proof.
  split; by_timer N c c; try done.
  - by rewrite lor_mod8_twice.
  - by rewrite lor_mod8_twice.
Qed.

(** X4.  Starting a channel that was just initialised or stopped programs
    exactly prescaler 1024 and compare-match mode: [TCCRnB] is
    [_BV(CS10) | _BV(CS12) | _BV(WGM12)] = 13 and [TCCRnA] is 0, whatever
    the registers held before, and the compare register is the one set
    earlier.  After [stopTimer] the mask register is kept as well, so a
    stopped channel restarts with its interval and its interrupt enable. *)
Theorem start_after_init_or_stop (N c : Z) (d : bool) (T : hwtimer) (m : mcu) :
  switch_case N c = Some T ->
  regs T (startTimer N c (initTimer N c m))
  = mkRegs 0 13 (Z.lor (TIMSK (regs T m)) 2 mod 2 ^ 8) (OCRA (regs T m))
  /\ regs T (startTimer N c (stopTimer N c d m))
     = mkRegs 0 13 (TIMSK (regs T m)) (OCRA (regs T m)).
Proof.
  intros Hc. by driver_regs.
Qed.

Lemma start_after_init_or_stop_witness :
  regs Timer1 (startTimer 2 0 (initTimer 2 0 (mkMcu false (mkRegs 3 7 0 977)
                 (mkRegs 0 0 0 0) (mkRegs 0 0 0 0) (mkRegs 0 0 0 0))))
  = mkRegs 0 13 2 977.
Proof.
  apply (start_after_init_or_stop 2 0 true Timer1
           (mkMcu false (mkRegs 3 7 0 977)
              (mkRegs 0 0 0 0) (mkRegs 0 0 0 0) (mkRegs 0 0 0 0))).
  reflexivity.
Defined.

(** X5.  Stopping or initialising a channel undoes a start of it:
    [stopTimer] with interrupts disabled after [startTimer] gives the machine
    that [stopTimer] alone gives, [initTimer] after [startTimer] the machine
    that [initTimer] alone gives, and [stopTimer] after [initTimer] changes
    nothing. *)
Theorem stop_and_init_undo_start (N c : Z) (m : mcu) :
  stopTimer N c true (startTimer N c m) = stopTimer N c true m
  /\ initTimer N c (startTimer N c m) = initTimer N c m
  /\ stopTimer N c true (initTimer N c m) = initTimer N c m.
Proof.
  split; [|split]; by by_timer N c c.
Qed.

(** X6.  Operations on two different channels commute: for [stopTimer]
    with interrupts disabled, [initTimer] and [startTimer], the machine is
    the same whichever channel is handled first. *)
Theorem operations_on_distinct_channels_commute (N c c' : Z) (m : mcu) :
  c <> c' ->
  stopTimer N c true (stopTimer N c' true m)
  = stopTimer N c' true (stopTimer N c true m)
  /\ initTimer N c (initTimer N c' m) = initTimer N c' (initTimer N c m)
  /\ startTimer N c (startTimer N c' m) = startTimer N c' (startTimer N c m)
  /\ stopTimer N c true (initTimer N c' m)
     = initTimer N c' (stopTimer N c true m)
  /\ stopTimer N c true (startTimer N c' m)
     = startTimer N c' (stopTimer N c true m)
  /\ initTimer N c (startTimer N c' m) = startTimer N c' (initTimer N c m).
Proof.
  intros Hne.
  assert (forall T, switch_case N c = Some T -> switch_case N c' = Some T ->
                    False) as Hdisj.
  { intros T H H'. apply Hne. by eapply switch_case_inj. }
  repeat split; by_timer N c c'; try done; by (exfalso; eauto).
Qed.

Lemma operations_on_distinct_channels_commute_witness :
  initTimer 2 0 (startTimer 2 1 mcu_reset)
  = startTimer 2 1 (initTimer 2 0 mcu_reset).
Proof.
  apply (operations_on_distinct_channels_commute 2 0 1 mcu_reset). lia.
Defined.

(** ** Further properties of [setTimerInterval] *)

(** X7.  On the channel it is given, [setTimerInterval] writes the compare
    register and nothing else: the control registers and the mask register
    of that channel are as before, so the call neither starts nor stops the
    timer and does not touch its interrupt enable. *)
Theorem setTimerInterval_keeps_control_and_mask
    (prec emax F_CPU N : Z) (MAX_INTERVAL : spec_float)
    (c msec M cnt : Z) (T : hwtimer) (m : mcu) :
  maximum prec emax MAX_INTERVAL = Ok M ->
  counter_of prec emax F_CPU (constrain msec 1 M) = Ok cnt ->
  switch_case N c = Some T ->
  exists m',
    setTimerInterval prec emax F_CPU N MAX_INTERVAL c msec m
    = Ok (m', constrain msec 1 M)
    /\ regs T m'
       = mkRegs (TCCRA (regs T m)) (TCCRB (regs T m)) (TIMSK (regs T m)) cnt.
Proof.
  intros HM Hcnt Hc. eexists. split; [by apply setTimerInterval_ok|].
  driver_regs. f_equal. apply Z.mod_small.
  pose proof (to_uint16_range _ _ Hcnt). lia.
Qed.

Lemma setTimerInterval_keeps_control_and_mask_witness :
  exists m',
    setTimerInterval 53 1024 16000000 2 (MAX_INTERVAL_of binary64 16000000)
      1 250 (startTimer 2 1 (initTimer 2 1 mcu_reset))
    = Ok (m', constrain 250 1 4194)
    /\ regs Timer3 m' = mkRegs 0 13 2 3905.
Proof.
  apply (setTimerInterval_keeps_control_and_mask 53 1024 16000000 2
           (MAX_INTERVAL_of binary64 16000000) 1 250 4194 3905 Timer3
           (startTimer 2 1 (initTimer 2 1 mcu_reset)));
    vm_compute; reflexivity.
Defined.

(** X8.  The period [setTimerInterval] returns is a fixed point: asking
    for the returned period again, on the machine the first call left,
    returns the same period and leaves that machine unchanged. *)
Theorem setTimerInterval_returned_period_is_stable
    (prec emax F_CPU N : Z) (MAX_INTERVAL : spec_float)
    (c msec M cnt : Z) (m : mcu) :
  maximum prec emax MAX_INTERVAL = Ok M ->
  1 <= M ->
  counter_of prec emax F_CPU (constrain msec 1 M) = Ok cnt ->
  exists m' r,
    setTimerInterval prec emax F_CPU N MAX_INTERVAL c msec m = Ok (m', r)
    /\ setTimerInterval prec emax F_CPU N MAX_INTERVAL c r m' = Ok (m', r).
Proof.
  intros HM H1 Hcnt. eexists _, _. split; [by apply setTimerInterval_ok|].
  assert (constrain (constrain msec 1 M) 1 M = constrain msec 1 M) as Hfix.
  { pose proof (constrain_range msec M H1).
    unfold constrain at 1.
    destruct (Z.ltb_spec (constrain msec 1 M) 1),
      (Z.gtb_spec (constrain msec 1 M) M); lia. }
  rewrite (setTimerInterval_ok prec emax F_CPU N MAX_INTERVAL c
             (constrain msec 1 M) _ M cnt HM) by (by rewrite Hfix).
  rewrite Hfix. f_equal. f_equal.
  by by_timer N c c.
Qed.

Lemma setTimerInterval_returned_period_is_stable_witness :
  exists m' r,
    setTimerInterval 24 128 16000000 2 (MAX_INTERVAL_of binary32 16000000)
      0 60000 mcu_reset = Ok (m', r)
    /\ setTimerInterval 24 128 16000000 2 (MAX_INTERVAL_of binary32 16000000)
         0 r m' = Ok (m', r).
Proof.
  apply (setTimerInterval_returned_period_is_stable 24 128 16000000 2
           (MAX_INTERVAL_of binary32 16000000) 0 60000 4194 65530 mcu_reset);
    [vm_compute; reflexivity | lia | vm_compute; reflexivity].
Defined.

(** X9.  The last request wins: two calls of [setTimerInterval] on a
    channel leave the machine, and return the period, of the second call
    alone. *)
Theorem setTimerInterval_last_request_wins
    (prec emax F_CPU N : Z) (MAX_INTERVAL : spec_float)
    (c msec1 msec2 M cnt1 cnt2 : Z) (m : mcu) :
  maximum prec emax MAX_INTERVAL = Ok M ->
  counter_of prec emax F_CPU (constrain msec1 1 M) = Ok cnt1 ->
  counter_of prec emax F_CPU (constrain msec2 1 M) = Ok cnt2 ->
  exists m1 m2,
    setTimerInterval prec emax F_CPU N MAX_INTERVAL c msec1 m
    = Ok (m1, constrain msec1 1 M)
    /\ setTimerInterval prec emax F_CPU N MAX_INTERVAL c msec2 m1
       = Ok (m2, constrain msec2 1 M)
    /\ setTimerInterval prec emax F_CPU N MAX_INTERVAL c msec2 m
       = Ok (m2, constrain msec2 1 M).
Proof.
  intros HM H1 H2. eexists _, _.
  split; [by apply setTimerInterval_ok|].
  split; [by apply setTimerInterval_ok|].
  rewrite (setTimerInterval_ok _ _ _ _ _ _ _ _ _ _ HM H2).
  f_equal. f_equal. by by_timer N c c.
Qed.

Lemma setTimerInterval_last_request_wins_witness :
  exists m1 m2,
    setTimerInterval 53 1024 16000000 2 (MAX_INTERVAL_of binary64 16000000)
      0 1 mcu_reset = Ok (m1, constrain 1 1 4194)
    /\ setTimerInterval 53 1024 16000000 2 (MAX_INTERVAL_of binary64 16000000)
         0 250 m1 = Ok (m2, constrain 250 1 4194)
    /\ setTimerInterval 53 1024 16000000 2 (MAX_INTERVAL_of binary64 16000000)
         0 250 mcu_reset = Ok (m2, constrain 250 1 4194).
Proof.
  apply (setTimerInterval_last_request_wins 53 1024 16000000 2
           (MAX_INTERVAL_of binary64 16000000) 0 1 250 4194 14 3905 mcu_reset);
    vm_compute; reflexivity.
Defined.

(** X10.  The interval can be set before or after a channel, the same or
    another, is started, stopped or initialised: [setTimerInterval] commutes
    with [startTimer], with [initTimer] and with [stopTimer] with interrupts
    disabled. *)
Theorem setTimerInterval_commutes_with_start_stop_init
    (prec emax F_CPU N : Z) (MAX_INTERVAL : spec_float)
    (c c' msec M cnt : Z) (m : mcu) :
  maximum prec emax MAX_INTERVAL = Ok M ->
  counter_of prec emax F_CPU (constrain msec 1 M) = Ok cnt ->
  exists m1,
    setTimerInterval prec emax F_CPU N MAX_INTERVAL c msec m
    = Ok (m1, constrain msec 1 M)
    /\ setTimerInterval prec emax F_CPU N MAX_INTERVAL c msec
         (startTimer N c' m)
       = Ok (startTimer N c' m1, constrain msec 1 M)
    /\ setTimerInterval prec emax F_CPU N MAX_INTERVAL c msec
         (initTimer N c' m)
       = Ok (initTimer N c' m1, constrain msec 1 M)
    /\ setTimerInterval prec emax F_CPU N MAX_INTERVAL c msec
         (stopTimer N c' true m)
       = Ok (stopTimer N c' true m1, constrain msec 1 M).
Proof.
  intros HM Hcnt. eexists. split; [by apply setTimerInterval_ok|].
  rewrite !(setTimerInterval_ok _ _ _ _ _ _ _ _ _ _ HM Hcnt).
  repeat split; f_equal; f_equal; by by_timer N c c'.
Qed.

Lemma setTimerInterval_commutes_with_start_stop_init_witness :
  exists m1,
    setTimerInterval 53 1024 16000000 2 (MAX_INTERVAL_of binary64 16000000)
      0 250 mcu_reset = Ok (m1, constrain 250 1 4194)
    /\ setTimerInterval 53 1024 16000000 2 (MAX_INTERVAL_of binary64 16000000)
         0 250 (startTimer 2 0 mcu_reset)
       = Ok (startTimer 2 0 m1, constrain 250 1 4194)
    /\ setTimerInterval 53 1024 16000000 2 (MAX_INTERVAL_of binary64 16000000)
         0 250 (initTimer 2 0 mcu_reset)
       = Ok (initTimer 2 0 m1, constrain 250 1 4194)
    /\ setTimerInterval 53 1024 16000000 2 (MAX_INTERVAL_of binary64 16000000)
         0 250 (stopTimer 2 0 true mcu_reset)
       = Ok (stopTimer 2 0 true m1, constrain 250 1 4194).
Proof.
  apply (setTimerInterval_commutes_with_start_stop_init 53 1024 16000000 2
           (MAX_INTERVAL_of binary64 16000000) 0 0 250 4194 3905 mcu_reset);
    vm_compute; reflexivity.
Defined.

(** ** Further properties of the interval arithmetic at 16 MHz *)

Lemma constrain_id amt low high :
  low <= amt <= high -> constrain amt low high = amt.
Proof.
  intros H. unfold constrain.
  destruct (Z.ltb_spec amt low), (Z.gtb_spec amt high); lia.
Qed.

Lemma maximum_16MHz fmt :
  fmt = binary64 \/ fmt = binary32 -> maximum_at fmt 16000000 = Ok 4194.
Proof.
  intros [->| ->]; [apply maximum_16MHz_binary64|apply maximum_16MHz_binary32].
Qed.

(** In either format the counter is the integer quotient less one, or one
    below that. *)
Lemma counter_16MHz fmt i :
  fmt = binary64 \/ fmt = binary32 ->
  1 <= i <= 4194 ->
  exists cnt,
    counter_at fmt 16000000 i = Ok cnt
    /\ i * 16000000 / 1024000 - 2 <= cnt <= i * 16000000 / 1024000 - 1
    /\ (fmt = binary64 -> cnt = i * 16000000 / 1024000 - 1).
Proof.
  intros Hfmt Hi.
  pose proof (round_down_comparator_Z 16000000 i ltac:(lia)) as E.
  destruct Hfmt as [->| ->].
  - exists (round_down_comparator 16000000 i).
    split; [by apply counter_16MHz_binary64|]. split; [lia|done].
  - destruct (counter_16MHz_binary32 i Hi) as (cnt & Hcnt & Hnear).
    exists cnt. split; [done|]. split; [lia|discriminate].
Qed.

(** X11.  At 16 MHz, for every request on a channel that has a case, the
    period the programmed comparator produces, [cnt + 1] ticks of
    [1024 / F_CPU] seconds, never exceeds the clamped period returned, and
    falls short of it by less than one tick (64 us) when [double] is
    binary64 and by less than two ticks when it is binary32; the comparator
    lies between 14 and 65530. *)
Theorem programmed_period_within_a_tick_16MHz
    (N c msec : Z) (T : hwtimer) (m : mcu) :
  switch_case N c = Some T ->
  (exists cnt,
     programs binary64 16000000 N c msec m cnt (constrain msec 1 4194)
     /\ (cnt + 1) * (1024 * 1000) <= constrain msec 1 4194 * 16000000
     /\ constrain msec 1 4194 * 16000000 < (cnt + 2) * (1024 * 1000)
     /\ 14 <= cnt <= 65530)
  /\ (exists cnt,
        programs binary32 16000000 N c msec m cnt (constrain msec 1 4194)
        /\ (cnt + 1) * (1024 * 1000) <= constrain msec 1 4194 * 16000000
        /\ constrain msec 1 4194 * 16000000 < (cnt + 3) * (1024 * 1000)
        /\ 14 <= cnt <= 65530).
Proof.
  intros Hc.
  assert (1 <= constrain msec 1 4194 <= 4194) as Hi
    by (apply constrain_range; lia).
  assert (forall fmt, fmt = binary64 \/ fmt = binary32 ->
            exists cnt,
              programs fmt 16000000 N c msec m cnt (constrain msec 1 4194)
              /\ (cnt + 1) * (1024 * 1000) <= constrain msec 1 4194 * 16000000
              /\ constrain msec 1 4194 * 16000000
                 < (cnt + (if decide (fmt = binary64) then 2 else 3))
                   * (1024 * 1000)
              /\ 14 <= cnt <= 65530) as H.
  { intros fmt Hfmt.
    destruct (counter_16MHz fmt _ Hfmt Hi) as (cnt & Hcnt & Hb & H64).
    exists cnt. split.
    { eapply programs_intro; [done|by apply maximum_16MHz|done]. }
    pose proof (Z.div_mod (constrain msec 1 4194 * 16000000) 1024000
                  ltac:(lia)) as Hdm.
    pose proof (Z.mod_pos_bound (constrain msec 1 4194 * 16000000) 1024000
                  ltac:(lia)) as Hmod.
    pose proof (to_uint16_range _ _ Hcnt) as Hu.
    assert (14 <= cnt).
    { assert (15 <= constrain msec 1 4194 * 16000000 / 1024000)
        by (apply Z.div_le_lower_bound; lia).
      destruct (decide (fmt = binary64)) as [E|E]; [specialize (H64 E); lia|].
      destruct (decide (constrain msec 1 4194 = 1)) as [E1|E1].
      - rewrite E1 in Hcnt. destruct Hfmt as [->| ->]; [done|].
        vm_compute in Hcnt. injection Hcnt as <-. lia.
      - assert (31 <= constrain msec 1 4194 * 16000000 / 1024000)
          by (apply Z.div_le_lower_bound; lia).
        lia. }
    assert (cnt <= 65530).
    { assert (constrain msec 1 4194 * 16000000 / 1024000 < 65532)
        by (apply Z.div_lt_upper_bound; lia).
      lia. }
    destruct (decide (fmt = binary64)) as [E|E]; [specialize (H64 E)|]; lia. }
  split.
  - destruct (H binary64 (or_introl eq_refl)) as (cnt & ? & ? & ? & ?).
    exists cnt. by rewrite decide_True in * by done.
  - destruct (H binary32 (or_intror eq_refl)) as (cnt & ? & ? & ? & ?).
    exists cnt. by rewrite decide_False in * by done.
Qed.

Lemma programmed_period_within_a_tick_16MHz_witness :
  exists cnt,
    programs binary32 16000000 2 0 520 mcu_reset cnt (constrain 520 1 4194)
    /\ (cnt + 1) * (1024 * 1000) <= constrain 520 1 4194 * 16000000
    /\ constrain 520 1 4194 * 16000000 < (cnt + 3) * (1024 * 1000)
    /\ 14 <= cnt <= 65530.
Proof.
  apply (programmed_period_within_a_tick_16MHz 2 0 520 Timer1 mcu_reset).
  reflexivity.
Defined.

(** X12.  At 16 MHz the comparator grows strictly with the period: of two
    requests within 1 .. 4194 ms the longer one programs the larger
    comparator, in either format of [double], so no two periods share a
    comparator value. *)
Theorem comparator_strictly_increasing_16MHz
    (N c msec1 msec2 : Z) (T : hwtimer) (m1 m2 : mcu) :
  switch_case N c = Some T ->
  1 <= msec1 -> msec1 < msec2 -> msec2 <= 4194 ->
  (exists cnt1 cnt2,
     programs binary64 16000000 N c msec1 m1 cnt1 msec1
     /\ programs binary64 16000000 N c msec2 m2 cnt2 msec2
     /\ cnt1 < cnt2)
  /\ (exists cnt1 cnt2,
        programs binary32 16000000 N c msec1 m1 cnt1 msec1
        /\ programs binary32 16000000 N c msec2 m2 cnt2 msec2
        /\ cnt1 < cnt2).
Proof.
  intros Hc H1 H12 H2.
  assert (forall fmt, fmt = binary64 \/ fmt = binary32 ->
            exists cnt1 cnt2,
              programs fmt 16000000 N c msec1 m1 cnt1 msec1
              /\ programs fmt 16000000 N c msec2 m2 cnt2 msec2
              /\ cnt1 < cnt2) as H.
  { intros fmt Hfmt.
    destruct (counter_16MHz fmt msec1 Hfmt ltac:(lia)) as (cnt1 & Hcnt1 & Hb1 & _).
    destruct (counter_16MHz fmt msec2 Hfmt ltac:(lia)) as (cnt2 & Hcnt2 & Hb2 & _).
    exists cnt1, cnt2. split; [|split].
    - rewrite <- (constrain_id msec1 1 4194) at 2 by lia.
      eapply programs_intro; [done|by apply maximum_16MHz|].
      by rewrite constrain_id by lia.
    - rewrite <- (constrain_id msec2 1 4194) at 2 by lia.
      eapply programs_intro; [done|by apply maximum_16MHz|].
      by rewrite constrain_id by lia.
    - pose proof (Z.div_mod (msec1 * 16000000) 1024000 ltac:(lia)).
      pose proof (Z.mod_pos_bound (msec1 * 16000000) 1024000 ltac:(lia)).
      pose proof (Z.div_mod (msec2 * 16000000) 1024000 ltac:(lia)).
      pose proof (Z.mod_pos_bound (msec2 * 16000000) 1024000 ltac:(lia)).
      lia. }
  split; apply H; auto.
Qed.

Lemma comparator_strictly_increasing_16MHz_witness :
  exists cnt1 cnt2,
    programs binary32 16000000 2 0 519 mcu_reset cnt1 519
    /\ programs binary32 16000000 2 0 520 mcu_reset cnt2 520
    /\ cnt1 < cnt2.
Proof.
  apply (comparator_strictly_increasing_16MHz 2 0 519 520 Timer1
           mcu_reset mcu_reset); [reflexivity | lia ..].
Defined.

(** * Further properties of the interrupt shim *)

(** X13.  Every interrupt vector that is compiled in reads the dispatch
    table entry of the channel whose registers the driver programs on the
    same timer unit, and every channel the driver has a case for has its
    vector compiled in: [TIMERn_COMPA_vect] is defined exactly when the
    [switch] maps the vector's channel to timer n, and no other channel maps
    to that timer. *)
Theorem vector_serves_the_channel_of_its_timer (N : Z) (T : hwtimer) :
  (vector_defined N T = true <-> switch_case N (vector_channel T) = Some T)
  /\ (forall c, switch_case N c = Some T ->
        c = vector_channel T /\ vector_defined N T = true).
Proof.
  assert (vector_defined N T = true <->
          switch_case N (vector_channel T) = Some T) as Hiff.
  { destruct T; cbn; repeat case_match; split; congruence. }
  split; [exact Hiff|].
  intros c Hc.
  destruct (switch_case_cases N c)
    as [[-> H]|[[-> H]|[[-> H]|[[-> H]|[_ H]]]]];
    pose proof Hc as Hc'; rewrite H in Hc'; repeat case_match;
    try discriminate; injection Hc' as <-;
    (split; [reflexivity | apply Hiff; exact Hc]).
Qed.

(** X14.  When the interrupt of a repeating timer fires (callback set, not
    one-shot, and user code leaving it so), the shim invokes the stored
    callback exactly once with the stored argument and does nothing else:
    the state on return is the one the callback left, so the object stays
    registered and the timer keeps running. *)
Theorem repeating_timer_fires_and_stays_registered
    (N : Z) (user_code : Z -> Z -> world -> world)
    (T : hwtimer) (that : Z) (o o1 : AVRTimer) (w : world) :
  vector_defined N T = true ->
  _AVRTimerTable w !! Z.to_nat (vector_channel T) = Some that ->
  deref that w = Ok o ->
  _repeating o = true ->
  _callback o <> nullptr ->
  deref that (user_code (_callback o) (_callbackArg o) w) = Ok o1 ->
  _oneshot o1 = false ->
  ISR N user_code T w
  = Ok (user_code (_callback o) (_callbackArg o) w,
        [(_callback o, _callbackArg o)]).
Proof.
  intros Hv Ht Hd Hr Hcb Hd1 Ho1.
  unfold ISR. rewrite Hv, Ht. unfold _AVRCommonHandler.
  rewrite Hd; cbn. rewrite Hr; cbn.
  destruct (Z.eqb_spec (_callback o) nullptr); [done|]. cbn.
  rewrite Hd1; cbn. by rewrite Ho1.
Qed.

Lemma repeating_timer_fires_and_stays_registered_witness :
  ISR 2 busy_callback Timer1
    (world_of [256; nullptr] (mkTimer 0 4660 7 true false true))
  = Ok (busy_callback 4660 7
          (world_of [256; nullptr] (mkTimer 0 4660 7 true false true)),
        [(4660, 7)]).
Proof.
  apply (repeating_timer_fires_and_stays_registered 2 busy_callback Timer1
           256 (mkTimer 0 4660 7 true false true)
           (mkTimer 0 4660 7 true false true));
    try reflexivity; discriminate.
Defined.

(** X15.  An interrupt that returns has invoked at most one callback, and
    only the one stored in the object registered for its own channel, with
    that object's argument: either nothing was called, the object being in
    neither mode and the state untouched, or exactly the stored non-null
    callback was called, the object being repeating or one-shot. *)
Theorem interrupt_calls_only_the_registered_callback
    (N : Z) (user_code : Z -> Z -> world -> world)
    (T : hwtimer) (w w' : world) (calls : list call) :
  ISR N user_code T w = Ok (w', calls) ->
  exists that o,
    _AVRTimerTable w !! Z.to_nat (vector_channel T) = Some that
    /\ deref that w = Ok o
    /\ ((calls = [] /\ w' = w
         /\ _repeating o = false /\ _oneshot o = false)
        \/ (calls = [(_callback o, _callbackArg o)]
            /\ _callback o <> nullptr
            /\ _repeating o || _oneshot o = true)).
Proof.
  unfold ISR. destruct (vector_defined N T); [|done].
  destruct (_AVRTimerTable w !! Z.to_nat (vector_channel T)) as [that|];
    [|done].
  unfold _AVRCommonHandler.
  destruct (deref that w) as [o|] eqn:Hd; [|done]. cbn.
  intros H. exists that, o. split; [done|]. split; [done|].
  destruct (_repeating o || _oneshot o) eqn:Hmode.
  - right. destruct (Z.eqb_spec (_callback o) nullptr) as [E|E]; [done|].
    cbn in H. split; [|done].
    destruct (deref that (user_code (_callback o) (_callbackArg o) w))
      as [o1|]; [|done].
    cbn in H. destruct (_oneshot o1).
    + destruct (disarm N that _); [|done]. cbn in H. congruence.
    + congruence.
  - left. apply orb_false_iff in Hmode as [Hr Ho].
    cbn in H. rewrite Hd in H. cbn in H. rewrite Ho in H.
    injection H as <- <-. done.
Qed.

Lemma interrupt_calls_only_the_registered_callback_witness :
  exists that o,
    _AVRTimerTable
      (world_of [nullptr; 256] (mkTimer 1 4660 7 false true true))
      !! Z.to_nat (vector_channel Timer3) = Some that
    /\ deref that (world_of [nullptr; 256] (mkTimer 1 4660 7 false true true))
       = Ok o
    /\ (([(4660, 7)] = []
         /\ mkWorld (sei mcu_reset)
              {[ 256 := mkTimer 1 4660 7 false false false ]}
              [nullptr; nullptr]
            = world_of [nullptr; 256] (mkTimer 1 4660 7 false true true)
         /\ _repeating o = false /\ _oneshot o = false)
        \/ ([(4660, 7)] = [(_callback o, _callbackArg o)]
            /\ _callback o <> nullptr
            /\ _repeating o || _oneshot o = true)).
Proof.
  apply (interrupt_calls_only_the_registered_callback 2 quiet_callback Timer3
           (world_of [nullptr; 256] (mkTimer 1 4660 7 false true true))
           (mkWorld (sei mcu_reset)
              {[ 256 := mkTimer 1 4660 7 false false false ]}
              [nullptr; nullptr])
           [(4660, 7)]).
  vm_compute. reflexivity.
Defined.

(** * What the driver never does, and a whole configuration *)

(** X16.  No driver operation clears an interrupt enable bit or changes a
    compare register it was not asked to set: after [stopTimer],
    [initTimer] or [startTimer] on any channel, every bit that was set in
    the low byte of any mask register is still set and every compare
    register holds what it held; in particular a stopped channel keeps its
    compare-match interrupt enabled and its interval. *)
Theorem driver_keeps_mask_bits_and_compare_registers
    (N c : Z) (d : bool) (T : hwtimer) (m : mcu) :
  (forall i, 0 <= i < 8 ->
     Z.testbit (TIMSK (regs T m)) i = true ->
     Z.testbit (TIMSK (regs T (stopTimer N c d m))) i = true
     /\ Z.testbit (TIMSK (regs T (initTimer N c m))) i = true
     /\ Z.testbit (TIMSK (regs T (startTimer N c m))) i = true)
  /\ OCRA (regs T (stopTimer N c d m)) = OCRA (regs T m)
  /\ OCRA (regs T (initTimer N c m)) = OCRA (regs T m)
  /\ OCRA (regs T (startTimer N c m)) = OCRA (regs T m).
Proof.
  destruct (decide (switch_case N c = Some T)) as [Hc|Hc]; driver_regs.
  - split; [|done]. intros i Hi Hbit. split; [done|]. split; [|done].
    rewrite testbit_lor_mod8 by lia. rewrite Hbit.
    by destruct (Z.ltb_spec i 8); [|lia].
  - split; [|done]. by intros i Hi Hbit.
Qed.


